(** * Shallow embedding of src/LangChain/main.py (EmailGenerationSystem)

    The LangGraph workflow of [EmailGenerationSystem] is modelled as:
    - [value]: the Python values [json.loads] can return (the [Any] of
      [Dict[str, Any]]); JSON numbers are modelled as integers;
    - [EmailState]: the [TypedDict] threaded through the graph;
    - [M]: a state-and-exception monad over a [world] (LLM call counter,
      the clock read by [datetime.now()], the file [email_result.html],
      standard output), in which each node method is written;
    - [Env]: the external collaborators (the [ChatOpenAI] client, [json.loads],
      [strftime], the two prompt templates of [prompt.py], the file system
      and the step limit of the LangGraph runtime);
    - [exec]: the compiled graph of [_build_graph], driven as LangGraph's
      [invoke] does: one node per superstep, at most [recursion_limit]
      supersteps, [GraphRecursionError] when the limit is exhausted; the
      superstep that finds the run finished counts against the limit too. *)

From Stdlib Require Import String List ZArith Lia.
Import ListNotations.
Set Warnings "-register-all".
Open Scope string_scope.

(** ** Python values *)

Inductive value : Type :=
| VNull
| VBool (b : bool)
| VInt (z : Z)
| VStr (s : string)
| VArr (l : list value)
| VObj (d : list (string * value)).

(** A Python [dict] as an association list in insertion order. *)
Definition dict := list (string * value).
Definition str_dict := list (string * string).

Fixpoint dict_lookup {A} (k : string) (d : list (string * A)) : option A :=
  match d with
  | [] => None
  | (k', v) :: d' => if String.eqb k k' then Some v else dict_lookup k d'
  end.

(** [d.get(k, default)] *)
Definition dict_get (d : dict) (k : string) (default : value) : value :=
  match dict_lookup k d with Some v => v | None => default end.

(** Python [x == n] for an integer literal [n] ([True == 1] holds). *)
Definition py_eq_int (v : value) (n : Z) : bool :=
  match v with
  | VInt z => Z.eqb z n
  | VBool b => Z.eqb (if b then 1 else 0)%Z n
  | _ => false
  end.

(** Python [x == s] for a string literal [s]. *)
Definition py_eq_str (v : value) (s : string) : bool :=
  match v with
  | VStr s' => String.eqb s' s
  | _ => false
  end.

(** Decimal rendering of integers, as [str(int)]. *)
Fixpoint N_digits (fuel : nat) (n : N) (acc : string) : string :=
  match fuel with
  | O => acc
  | S f =>
      let acc' := String (Ascii.ascii_of_N (48 + N.modulo n 10)) acc in
      if N.ltb n 10 then acc' else N_digits f (N.div n 10) acc'
  end.

Definition Z_to_dec (z : Z) : string :=
  match z with
  | Z0 => "0"
  | Zpos p => N_digits (Pos.size_nat p) (Npos p) ""
  | Zneg p => "-" ++ N_digits (Pos.size_nat p) (Npos p) ""
  end.

(** [repr] of a [str], on the bytes of its UTF-8 encoding. Python wraps
    it in single quotes unless it contains a single quote and no double
    quote; it escapes the backslash, the chosen quote, newline, carriage
    return and tab by name and the other ASCII control characters as
    [\xhh]. Bytes above 127 are kept: the non-ASCII characters of this
    program (Hangul, emoji) are printable, and Python keeps those. *)
Definition hex_digit (n : nat) : Ascii.ascii :=
  Ascii.ascii_of_nat (if Nat.ltb n 10 then 48 + n else 87 + n).

Definition backslash : Ascii.ascii := Ascii.ascii_of_nat 92.

Fixpoint contains_byte (b : nat) (s : string) : bool :=
  match s with
  | EmptyString => false
  | String c s' => Nat.eqb (Ascii.nat_of_ascii c) b || contains_byte b s'
  end.

Fixpoint repr_escape (q : Ascii.ascii) (s : string) : string :=
  match s with
  | EmptyString => ""
  | String c s' =>
      let n := Ascii.nat_of_ascii c in
      let e :=
        if Nat.eqb n 92 then String backslash (String backslash "")
        else if Ascii.eqb c q then String backslash (String c "")
        else if Nat.eqb n 10 then String backslash "n"
        else if Nat.eqb n 13 then String backslash "r"
        else if Nat.eqb n 9 then String backslash "t"
        else if (Nat.ltb n 32 || Nat.eqb n 127)%bool then
          String backslash ("x" ++ String (hex_digit (n / 16))
                                     (String (hex_digit (n mod 16)) ""))
        else String c "" in
      e ++ repr_escape q s'
  end.

Definition repr_str (s : string) : string :=
  let q := if (contains_byte 39 s && negb (contains_byte 34 s))%bool
           then Ascii.ascii_of_nat 34 else Ascii.ascii_of_nat 39 in
  String q (repr_escape q s ++ String q "").

(** [repr] of a value. *)
Fixpoint py_repr (v : value) : string :=
  match v with
  | VNull => "None"
  | VBool true => "True"
  | VBool false => "False"
  | VInt z => Z_to_dec z
  | VStr s => repr_str s
  | VArr l =>
      "[" ++ (fix go (l : list value) : string :=
                match l with
                | [] => ""
                | [x] => py_repr x
                | x :: r => py_repr x ++ ", " ++ go r
                end) l ++ "]"
  | VObj d =>
      "{" ++ (fix go (d : list (string * value)) : string :=
                match d with
                | [] => ""
                | [(k, x)] => repr_str k ++ ": " ++ py_repr x
                | (k, x) :: r => repr_str k ++ ": " ++ py_repr x ++ ", " ++ go r
                end) d ++ "}"
  end.

Example py_repr_quotes :
  py_repr (VStr "ab") = "'ab'" /\
  py_repr (VStr "it's") =
    String (Ascii.ascii_of_nat 34) ("it's" ++ String (Ascii.ascii_of_nat 34) "") /\
  py_repr (VObj [("k", VStr (String (Ascii.ascii_of_nat 10) ""))]) =
    "{'k': '" ++ String backslash "n'}".
Proof. repeat split; reflexivity. Qed.

(** [str(v)] as used by f-string interpolation. *)
Definition py_str (v : value) : string :=
  match v with
  | VStr s => s
  | _ => py_repr v
  end.

Definition str_dict_str (d : str_dict) : string :=
  py_repr (VObj (map (fun '(k, s) => (k, VStr s)) d)).

(** ** The state of the graph ([class EmailState(TypedDict)]) *)

Record EmailState : Type := mkEmailState {
  user_input : string;
  parsed_data : str_dict;
  generated_email : string;
  accuracy_score : dict;
  send_status : string;
  result_summary : string;
  processing_time : string;
  current_date : string
}.

Definition set_parsed_data (st : EmailState) (d : str_dict) (cd pt : string) :=
  mkEmailState st.(user_input) d st.(generated_email) st.(accuracy_score)
    st.(send_status) st.(result_summary) pt cd.

Definition set_generated_email (st : EmailState) (e : string) :=
  mkEmailState st.(user_input) st.(parsed_data) e st.(accuracy_score)
    st.(send_status) st.(result_summary) st.(processing_time) st.(current_date).

Definition set_accuracy_score (st : EmailState) (a : dict) :=
  mkEmailState st.(user_input) st.(parsed_data) st.(generated_email) a
    st.(send_status) st.(result_summary) st.(processing_time) st.(current_date).

Definition set_send_status (st : EmailState) (s : string) :=
  mkEmailState st.(user_input) st.(parsed_data) st.(generated_email)
    st.(accuracy_score) s st.(result_summary) st.(processing_time) st.(current_date).

Definition set_result_summary (st : EmailState) (s : string) :=
  mkEmailState st.(user_input) st.(parsed_data) st.(generated_email)
    st.(accuracy_score) st.(send_status) s st.(processing_time) st.(current_date).

(** ** Exceptions and the world *)

Inductive exn : Type :=
| KeyError (k : string)
| TypeError
| ValueError
| LLMError (msg : string)        (* whatever [self.llm.invoke] raises *)
| OSError (msg : string)         (* [open]/[write] failure *)
| GraphRecursionError.

Inductive py_result (A : Type) : Type :=
| Ok (a : A)
| Raise (e : exn).
Arguments Ok {A} a.
Arguments Raise {A} e.

Record world : Type := mkWorld {
  llm_calls : nat;               (* number of [self.llm.invoke] calls so far *)
  clock : nat;                   (* number of [datetime.now()] calls so far *)
  html_file : option string;     (* contents of email_result.html *)
  stdout : list string;          (* lines printed *)
  disk_ok : bool                 (* whether [open("email_result.html", "w")]
                                    succeeds; when it fails the file is left
                                    as it was. A write failing after a
                                    successful open, which leaves a truncated
                                    file, is not modelled. *)
}.

Definition tick_llm (w : world) :=
  mkWorld (S w.(llm_calls)) w.(clock) w.(html_file) w.(stdout) w.(disk_ok).
Definition tick_clock (w : world) :=
  mkWorld w.(llm_calls) (S w.(clock)) w.(html_file) w.(stdout) w.(disk_ok).
Definition put_file (w : world) (s : string) :=
  mkWorld w.(llm_calls) w.(clock) (Some s) w.(stdout) w.(disk_ok).
Definition put_stdout (w : world) (s : string) :=
  mkWorld w.(llm_calls) w.(clock) w.(html_file) (w.(stdout) ++ [s]) w.(disk_ok).

(** The external collaborators. *)
Record Env : Type := mkEnv {
  (** [self.llm.invoke(prompt).content] on the i-th call: the response
      text, or the message of the exception the client raises *)
  llm : nat -> string -> string + string;
  (** [json.loads]: [None] is a [JSONDecodeError] *)
  json_loads : string -> option value;
  (** [datetime.now().strftime("%Y-%m-%d")] at the i-th clock read *)
  strftime_date : nat -> string;
  (** [datetime.now().strftime("%Y-%m-%d %H:%M:%S")] at the i-th clock read *)
  strftime_datetime : nat -> string;
  (** [PromptTemplate.from_template(EMAIL_GENERATION_PROMPT).format(...)]
      on user_input, current_date and the parsed fields *)
  email_prompt : string -> string -> str_dict -> string;
  (** [PromptTemplate.from_template(ACCURACY_CHECK_PROMPT).format(...)]
      on original_input and generated_email *)
  accuracy_prompt : string -> string -> string;
  (** supersteps LangGraph's [invoke] runs before raising
      [GraphRecursionError]; [run] passes no config, so the default
      [recursion_limit] (25) applies *)
  recursion_limit : nat
}.

(** ** The monad *)

Definition M (A : Type) : Type := world -> world * py_result A.

Definition ret {A} (a : A) : M A := fun w => (w, Ok a).
Definition raise {A} (e : exn) : M A := fun w => (w, Raise e).
Definition bind {A B} (m : M A) (f : A -> M B) : M B :=
  fun w => match m w with
           | (w', Ok a) => f a w'
           | (w', Raise e) => (w', Raise e)
           end.

Notation "x <- m ;; k" := (bind m (fun x => k))
  (at level 61, m at next level, right associativity).
Notation "m ;;; k" := (bind m (fun _ => k))
  (at level 61, right associativity).

Definition get_world : M world := fun w => (w, Ok w).
Definition modify (f : world -> world) : M unit := fun w => (f w, Ok tt).

(** ** Text of the two f-string templates *)

Definition nl : string := String (Ascii.ascii_of_nat 10) "".
Definition dq : string := String (Ascii.ascii_of_nat 34) "".

(** The f-string of [output_result] (lines 184-205), with the overall
    score already looked up. *)
Definition render_summary (st : EmailState) (score : value) : string :=
  String.concat "" [
    nl;
    "        📧 이메일 생성 완료 보고서";
    nl;
    "        ";
    nl;
    "        ═══════════════════════════════════════";
    nl;
    "        📝 처리 결과";
    nl;
    "        - 상태: ";
    st.(send_status);
    nl;
    "        - 정확도: ";
    py_str score;
    "/100";
    nl;
    "        - 처리 시간: ";
    st.(processing_time);
    nl;
    "        ";
    nl;
    "        📋 생성된 이메일 정보";
    nl;
    "        - 입력: ";
    st.(user_input);
    nl;
    "        - 파싱된 데이터: ";
    str_dict_str st.(parsed_data);
    nl;
    "        ";
    nl;
    "        📊 품질 평가";
    nl;
    "        - 파싱 정확성: ";
    py_str (dict_get st.(accuracy_score) "parsing_accuracy" (VStr "N/A"));
    "/40";
    nl;
    "        - 양식 준수: ";
    py_str (dict_get st.(accuracy_score) "format_compliance" (VStr "N/A"));
    "/30";
    nl;
    "        - 필수 정보: ";
    py_str (dict_get st.(accuracy_score) "required_info" (VStr "N/A"));
    "/20";
    nl;
    "        - 형식 완성도: ";
    py_str (dict_get st.(accuracy_score) "format_completeness" (VStr "N/A"));
    "/10";
    nl;
    "        ";
    nl;
    "        💡 피드백: ";
    py_str (dict_get st.(accuracy_score) "feedback" (VStr "없음"));
    nl;
    "        ═══════════════════════════════════════";
    nl;
    "        "].

(** The f-string of [update_web_page] (lines 215-273), with the indexed
    lookups already done; [now] is the render timestamp
    [datetime.now().strftime('%Y-%m-%d %H:%M:%S')]. *)
Definition web_page_html (st : EmailState) (score : value)
    (vehicle_model software_version control_board : string) (now : string) : string :=
  String.concat "" [
    nl;
    "        <!DOCTYPE html>";
    nl;
    "        <html lang=";
    dq;
    "ko";
    dq;
    ">";
    nl;
    "        <head>";
    nl;
    "            <meta charset=";
    dq;
    "UTF-8";
    dq;
    ">";
    nl;
    "            <meta name=";
    dq;
    "viewport";
    dq;
    " content=";
    dq;
    "width=device-width, initial-scale=1.0";
    dq;
    ">";
    nl;
    "            <title>이메일 생성 결과</title>";
    nl;
    "            <style>";
    nl;
    "                body { font-family: Arial, sans-serif; margin: 20px; background-color: #f5f5f5; }";
    nl;
    "                .container { max-width: 800px; margin: 0 auto; background: white; padding: 20px; border-radius: 8px; box-shadow: 0 2px 10px rgba(0,0,0,0.1); }";
    nl;
    "                .header { background: #007bff; color: white; padding: 15px; border-radius: 5px; margin-bottom: 20px; }";
    nl;
    "                .section { margin-bottom: 20px; padding: 15px; border: 1px solid #ddd; border-radius: 5px; }";
    nl;
    "                .score { font-size: 24px; font-weight: bold; color: #28a745; }";
    nl;
    "                .email-content { background: #f8f9fa; padding: 15px; border-radius: 5px; white-space: pre-wrap; }";
    nl;
    "                .timestamp { color: #666; font-size: 12px; }";
    nl;
    "            </style>";
    nl;
    "        </head>";
    nl;
    "        <body>";
    nl;
    "            <div class=";
    dq;
    "container";
    dq;
    ">";
    nl;
    "                <div class=";
    dq;
    "header";
    dq;
    ">";
    nl;
    "                    <h1>🚗 자동차 테스트 이메일 생성 시스템</h1>";
    nl;
    "                    <p>생성 시간: ";
    st.(processing_time);
    "</p>";
    nl;
    "                </div>";
    nl;
    "                ";
    nl;
    "                <div class=";
    dq;
    "section";
    dq;
    ">";
    nl;
    "                    <h2>📝 처리 결과</h2>";
    nl;
    "                    <p><strong>상태:</strong> ";
    st.(send_status);
    "</p>";
    nl;
    "                    <p><strong>정확도:</strong> <span class=";
    dq;
    "score";
    dq;
    ">";
    py_str score;
    "/100</span></p>";
    nl;
    "                </div>";
    nl;
    "                ";
    nl;
    "                <div class=";
    dq;
    "section";
    dq;
    ">";
    nl;
    "                    <h2>📋 입력 정보</h2>";
    nl;
    "                    <p><strong>사용자 입력:</strong> ";
    st.(user_input);
    "</p>";
    nl;
    "                    <p><strong>차종:</strong> ";
    vehicle_model;
    "</p>";
    nl;
    "                    <p><strong>소프트웨어 버전:</strong> ";
    software_version;
    "</p>";
    nl;
    "                    <p><strong>제어보드:</strong> ";
    control_board;
    "</p>";
    nl;
    "                </div>";
    nl;
    "                ";
    nl;
    "                <div class=";
    dq;
    "section";
    dq;
    ">";
    nl;
    "                    <h2>📧 생성된 이메일</h2>";
    nl;
    "                    <div class=";
    dq;
    "email-content";
    dq;
    ">";
    st.(generated_email);
    "</div>";
    nl;
    "                </div>";
    nl;
    "                ";
    nl;
    "                <div class=";
    dq;
    "section";
    dq;
    ">";
    nl;
    "                    <h2>📊 품질 평가</h2>";
    nl;
    "                    <p><strong>파싱 정확성:</strong> ";
    py_str (dict_get st.(accuracy_score) "parsing_accuracy" (VStr "N/A"));
    "/40</p>";
    nl;
    "                    <p><strong>양식 준수:</strong> ";
    py_str (dict_get st.(accuracy_score) "format_compliance" (VStr "N/A"));
    "/30</p>";
    nl;
    "                    <p><strong>필수 정보:</strong> ";
    py_str (dict_get st.(accuracy_score) "required_info" (VStr "N/A"));
    "/20</p>";
    nl;
    "                    <p><strong>형식 완성도:</strong> ";
    py_str (dict_get st.(accuracy_score) "format_completeness" (VStr "N/A"));
    "/10</p>";
    nl;
    "                    <p><strong>피드백:</strong> ";
    py_str (dict_get st.(accuracy_score) "feedback" (VStr "없음"));
    "</p>";
    nl;
    "                </div>";
    nl;
    "                ";
    nl;
    "                <div class=";
    dq;
    "timestamp";
    dq;
    ">";
    nl;
    "                    마지막 업데이트: "]
  ++ now ++
  String.concat "" [
    nl;
    "                </div>";
    nl;
    "            </div>";
    nl;
    "        </body>";
    nl;
    "        </html>";
    nl;
    "        "].

(** ** The nodes of the graph *)

Section Program.

Variable E : Env.

(** [self.llm.invoke(prompt).content] *)
Definition llm_invoke (prompt : string) : M string :=
  fun w => (tick_llm w,
            match llm E w.(llm_calls) prompt with
            | inl content => Ok content
            | inr msg => Raise (LLMError msg)
            end).

(** [datetime.now().strftime(...)] *)
Definition now_date : M string :=
  fun w => (tick_clock w, Ok (strftime_date E w.(clock))).
Definition now_datetime : M string :=
  fun w => (tick_clock w, Ok (strftime_datetime E w.(clock))).

(** The fixed [parsed_data] of [process_input]. *)
Definition fixed_parsed_data : str_dict :=
  [("vehicle_model", "추출된차종");
   ("software_version", "추출된버전");
   ("control_board", "추출된제어보드");
   ("manager_name", "김테스트");
   ("distributor_name", "박배포");
   ("test_result", "All Pass")].

Definition process_input (st : EmailState) : M EmailState :=
  let _user_input := st.(user_input) in
  cd <- now_date ;;
  pt <- now_datetime ;;
  ret (set_parsed_data st fixed_parsed_data cd pt).

Definition generate_email (st : EmailState) : M EmailState :=
  generated <- llm_invoke (email_prompt E st.(user_input) st.(current_date)
                                         st.(parsed_data)) ;;
  ret (set_generated_email st generated).

(** The record substituted on [json.JSONDecodeError]. *)
Definition parse_failure_score : dict :=
  [("overall_score", VInt 0);
   ("recommendation", VStr "REVISE");
   ("feedback", VStr "응답 파싱 실패")].

Definition check_accuracy (st : EmailState) : M EmailState :=
  response <- llm_invoke (accuracy_prompt E st.(user_input)
                                               st.(generated_email)) ;;
  match json_loads E response with
  | None =>
      (* except json.JSONDecodeError *)
      ret (set_accuracy_score st parse_failure_score)
  | Some (VObj accuracy_data) =>
      (* logger.info(f"... {accuracy_data['overall_score']}") *)
      match dict_lookup "overall_score" accuracy_data with
      | Some _ => ret (set_accuracy_score st accuracy_data)
      | None => raise (KeyError "overall_score")
      end
  | Some _ =>
      (* subscripting a list, string, number, bool or None with a str *)
      raise TypeError
  end.

(** The router [should_send_email]; [.get] on a dict never raises. *)
Definition should_send_email (st : EmailState) : string :=
  let score := dict_get st.(accuracy_score) "overall_score" (VInt 0) in
  let recommendation :=
    dict_get st.(accuracy_score) "recommendation" (VStr "REVISE") in
  if (py_eq_int score 100 && py_eq_str recommendation "APPROVE")%bool
  then "send" else "revise".

Definition revise_email (st : EmailState) : M EmailState :=
  let _feedback := dict_get st.(accuracy_score) "feedback" (VStr "") in
  ret st.

Definition send_complete : string := "전송 완료 (시뮬레이션)".

Definition simulate_email_send (st : EmailState) : M EmailState :=
  ret (set_send_status st send_complete).

Definition output_result (st : EmailState) : M EmailState :=
  match dict_lookup "overall_score" st.(accuracy_score) with
  | None => raise (KeyError "overall_score")
  | Some score =>
      let summary := render_summary st score in
      modify (fun w => put_stdout w summary) ;;;
      ret (set_result_summary st summary)
  end.

(** The HTML page of [update_web_page] as a function of the render
    timestamp, or the [KeyError] its subscripts raise. *)
Definition render_web_page (st : EmailState) : py_result (string -> string) :=
  match dict_lookup "overall_score" st.(accuracy_score) with
  | None => Raise (KeyError "overall_score")
  | Some score =>
  match dict_lookup "vehicle_model" st.(parsed_data) with
  | None => Raise (KeyError "vehicle_model")
  | Some vm =>
  match dict_lookup "software_version" st.(parsed_data) with
  | None => Raise (KeyError "software_version")
  | Some sv =>
  match dict_lookup "control_board" st.(parsed_data) with
  | None => Raise (KeyError "control_board")
  | Some cb => Ok (web_page_html st score vm sv cb)
  end end end end.

Definition update_web_page (st : EmailState) : M EmailState :=
  match render_web_page st with
  | Raise e => raise e
  | Ok page =>
      now <- now_datetime ;;
      let html_content := page now in
      w <- get_world ;;
      if w.(disk_ok)
      then modify (fun w => put_file w html_content) ;;; ret st
      else raise (OSError "email_result.html")
  end.

(** ** The graph of [_build_graph] *)

Inductive node : Type :=
| input_processing
| email_generation
| accuracy_check
| email_simulation
| result_output
| web_update
| revision
| END.

Definition node_eqb (a b : node) : bool :=
  match a, b with
  | input_processing, input_processing | email_generation, email_generation
  | accuracy_check, accuracy_check | email_simulation, email_simulation
  | result_output, result_output | web_update, web_update
  | revision, revision | END, END => true
  | _, _ => false
  end.

(** [workflow.add_node]: the method run at each node. *)
Definition run_node (n : node) (st : EmailState) : M EmailState :=
  match n with
  | input_processing => process_input st
  | email_generation => generate_email st
  | accuracy_check => check_accuracy st
  | email_simulation => simulate_email_send st
  | result_output => output_result st
  | web_update => update_web_page st
  | revision => revise_email st
  | END => ret st
  end.

(** The path map of [add_conditional_edges]. *)
Definition route_map (outcome : string) : py_result node :=
  if String.eqb outcome "send" then Ok email_simulation
  else if String.eqb outcome "revise" then Ok revision
  else Raise ValueError.

(** [add_edge] and [add_conditional_edges]: the successor of a node,
    evaluated on the state the node returned. *)
Definition next_node (n : node) (st : EmailState) : py_result node :=
  match n with
  | input_processing => Ok email_generation
  | email_generation => Ok accuracy_check
  | accuracy_check => route_map (should_send_email st)
  | revision => Ok email_generation
  | email_simulation => Ok result_output
  | result_output => Ok web_update
  | web_update => Ok END
  | END => Ok END
  end.

(** [self.graph.invoke]: one node per superstep, [fuel] supersteps left
    ([recursion_limit] at the start). The Pregel loop tests the step limit
    before it looks for tasks, so the superstep that finds nothing left to
    run (here: [END]) must also be within the limit; a run of exactly
    [recursion_limit] nodes raises [GraphRecursionError].
    Returns the final world, the nodes visited in order, and the final
    state or the exception that ended the run. *)
Fixpoint exec (fuel : nat) (n : node) (st : EmailState) (w : world)
  : world * list node * py_result EmailState :=
  match fuel with
  | O => (w, [], Raise GraphRecursionError)
  | S fuel' =>
      match n with
      | END => (w, [], Ok st)
      | _ =>
          match run_node n st w with
          | (w1, Raise e) => (w1, [n], Raise e)
          | (w1, Ok st1) =>
              match next_node n st1 with
              | Raise e => (w1, [n], Raise e)
              | Ok n' =>
                  let '(w2, trace, r) := exec fuel' n' st1 w1 in
                  (w2, n :: trace, r)
              end
          end
      end
  end.

Definition initial_state (user_input : string) : EmailState :=
  mkEmailState user_input [] "" [] "" "" "" "".

(** [EmailGenerationSystem.run] *)
Definition run (user_input : string) (w : world)
  : world * list node * py_result EmailState :=
  exec (recursion_limit E) input_processing (initial_state user_input) w.

(** One superstep of the graph, as a relation on configurations. *)
Inductive step : node * EmailState * world -> node * EmailState * world -> Prop :=
| step_node : forall n st w w1 st1 n',
    n <> END ->
    run_node n st w = (w1, Ok st1) ->
    next_node n st1 = Ok n' ->
    step (n, st, w) (n', st1, w1).

Inductive steps : node * EmailState * world -> node * EmailState * world -> Prop :=
| steps_refl : forall c, steps c c
| steps_cons : forall c1 c2 c3, step c1 c2 -> steps c2 c3 -> steps c1 c3.

End Program.

(** The nodes visited by a run that never leaves the revise loop:
    input processing, then Generation, Evaluation, Revision, ... *)
Definition loop_next (n : node) : node :=
  match n with
  | email_generation => accuracy_check
  | accuracy_check => revision
  | _ => email_generation
  end.

Fixpoint cycle_trace (k : nat) (n : node) : list node :=
  match k with
  | O => []
  | S k' => n :: cycle_trace k' (loop_next n)
  end.

Definition loop_run_trace (limit : nat) : list node :=
  match limit with
  | O => []
  | S k => input_processing :: cycle_trace k email_generation
  end.

(** The superstep relation as a function, and its iteration. *)
Definition step_fn (E : Env) (c : node * EmailState * world)
  : option (node * EmailState * world) :=
  let '(n, st, w) := c in
  match n with
  | END => None
  | _ =>
      match run_node E n st w with
      | (w1, Ok st1) =>
          match next_node n st1 with
          | Ok n' => Some (n', st1, w1)
          | Raise _ => None
          end
      | (_, Raise _) => None
      end
  end.

Fixpoint iterate_steps (E : Env) (k : nat) (c : node * EmailState * world)
  : option (node * EmailState * world) :=
  match k with
  | O => Some c
  | S k' =>
      match step_fn E c with
      | Some c' => iterate_steps E k' c'
      | None => None
      end
  end.

(** ** Concrete collaborators used to exercise the model *)

Module Stubs.

Definition q (s : string) : string := dq ++ s ++ dq.

Definition resp_approve : string :=
  "{" ++ q "overall_score" ++ ": 100, " ++ q "recommendation" ++ ": "
      ++ q "APPROVE" ++ "}".
Definition eval_approve : dict :=
  [("overall_score", VInt 100); ("recommendation", VStr "APPROVE")].

Definition resp_revise80 : string :=
  "{" ++ q "overall_score" ++ ": 80, " ++ q "recommendation" ++ ": "
      ++ q "REVISE" ++ "}".
Definition eval_revise80 : dict :=
  [("overall_score", VInt 80); ("recommendation", VStr "REVISE")].

(** Agrees with [json.loads] on every string the stubs below produce:
    the three JSON documents decode, everything else (drafts, the
    garbage response) is a [JSONDecodeError]. *)
Definition json_table (s : string) : option value :=
  if String.eqb s resp_approve then Some (VObj eval_approve)
  else if String.eqb s resp_revise80 then Some (VObj eval_revise80)
  else if String.eqb s "{}" then Some (VObj [])
  else None.

Fixpoint starts_with (pre s : string) : bool :=
  match pre, s with
  | EmptyString, _ => true
  | String c pre', String c' s' => (Ascii.eqb c c' && starts_with pre' s')%bool
  | String _ _, EmptyString => false
  end.

Definition is_check_prompt (p : string) : bool := starts_with "CHECK:" p.

(** A model answering drafts with [draft] and evaluations with [eval]. *)
Definition llm_with (eval : string) (i : nat) (p : string) : string + string :=
  if is_check_prompt p then inl eval else inl "Dear team, the test passed.".

Definition llm_down (i : nat) (p : string) : string + string :=
  inr "APIConnectionError: Connection error.".

Definition env_with (llm : nat -> string -> string + string) : Env :=
  mkEnv llm json_table
    (fun _ => "2026-10-19")
    (fun i => "2026-10-19 09:00:" ++ Z_to_dec (Z.of_nat i))
    (fun u _ _ => "EMAIL:" ++ u)
    (fun _ g => "CHECK:" ++ g)
    25.

Definition env_approve := env_with (llm_with resp_approve).
Definition env_revise80 := env_with (llm_with resp_revise80).
Definition env_empty_object := env_with (llm_with "{}").
Definition env_garbage := env_with (llm_with "Sure! Here is the evaluation").
Definition env_down := env_with llm_down.

Definition w0 : world := mkWorld 0 0 None [] true.
Definition input : string := "소나타, v2.1.3, ECU-2024".

Definition trace_of (r : world * list node * py_result EmailState) := snd (fst r).
Definition result_of (r : world * list node * py_result EmailState) := snd r.

End Stubs.

Import Stubs.

Fixpoint count_node (n : node) (l : list node) : nat :=
  match l with
  | [] => 0
  | m :: l' => (if node_eqb n m then 1 else 0) + count_node n l'
  end.

Example run_approve_trace :
  trace_of (run env_approve input w0) =
  [input_processing; email_generation; accuracy_check; email_simulation;
   result_output; web_update].
Proof. vm_compute. reflexivity. Qed.

Example run_revise80_trace :
  length (trace_of (run env_revise80 input w0)) = 25 /\
  count_node email_generation (trace_of (run env_revise80 input w0)) = 8 /\
  result_of (run env_revise80 input w0) = Raise GraphRecursionError.
Proof. vm_compute. auto. Qed.

Example run_garbage_trace :
  length (trace_of (run env_garbage input w0)) = 25.
Proof. vm_compute. reflexivity. Qed.

Example str_of_score : py_str (VInt 100) = "100" /\ py_str (VInt (-7)) = "-7".
Proof. vm_compute. auto. Qed.

(** ** Claims *)

(** C1. The router answers ["send"] exactly when the evaluation's
    [overall_score] equals 100 and its [recommendation] equals ["APPROVE"]
    (read with [.get] and the code's defaults), and ["revise"] otherwise;
    in particular a score of 100 with recommendation ["REVISE"] yields
    ["revise"]. *)
Theorem should_send_email_correct : forall st : EmailState,
  (should_send_email st = "send" <->
     py_eq_int (dict_get st.(accuracy_score) "overall_score" (VInt 0)) 100 = true /\
     py_eq_str (dict_get st.(accuracy_score) "recommendation" (VStr "REVISE"))
       "APPROVE" = true) /\
  (should_send_email st <> "send" -> should_send_email st = "revise") /\
  (dict_get st.(accuracy_score) "recommendation" (VStr "REVISE") = VStr "REVISE" ->
     should_send_email st = "revise").
Proof.
  intros st. unfold should_send_email.
  destruct (py_eq_int _ 100) eqn:Hs, (py_eq_str _ "APPROVE") eqn:Hr; simpl;
    repeat split; intros; try congruence; try tauto;
    match goal with
    | H : dict_get _ "recommendation" _ = VStr "REVISE" |- _ =>
        rewrite H in Hr; discriminate
    | _ => idtac
    end;
    try (destruct H as [H1 H2]; discriminate).
Qed.

(** C10. The router is total on every state, including one whose
    evaluation record is empty or lacks a key: a missing [overall_score]
    is read as 0 and a missing [recommendation] as ["REVISE"], so when
    either key is absent it answers ["revise"], which the graph maps to
    the revision node. *)
Theorem should_send_email_missing_key : forall st : EmailState,
  dict_lookup "overall_score" st.(accuracy_score) = None \/
  dict_lookup "recommendation" st.(accuracy_score) = None ->
  should_send_email st = "revise" /\ next_node accuracy_check st = Ok revision.
Proof.
  intros st Hmiss.
  assert (Hr : should_send_email st = "revise").
  { unfold should_send_email, dict_get.
    destruct Hmiss as [H | H]; rewrite H; simpl.
    - reflexivity.
    - rewrite Bool.andb_false_r. reflexivity. }
  split; [exact Hr |]. simpl. rewrite Hr. reflexivity.
Qed.

Lemma should_send_email_missing_key_witness :
  (dict_lookup "overall_score" (initial_state input).(accuracy_score) = None \/
   dict_lookup "recommendation" (initial_state input).(accuracy_score) = None) /\
  should_send_email (initial_state input) = "revise" /\
  next_node accuracy_check (initial_state input) = Ok revision.
Proof.
  split; [left; reflexivity |].
  apply should_send_email_missing_key. left. reflexivity.
Defined.

(** C6. The revision node leaves the state (and the world) unchanged:
    it only reads [accuracy_score.get("feedback", "")]; its only successor
    is the generation node, whatever the state. *)
Theorem revise_email_frame : forall (E : Env) (st : EmailState) (w : world),
  revise_email st w = (w, Ok st) /\
  next_node revision st = Ok email_generation /\
  (forall c, step E (revision, st, w) c <-> c = (email_generation, st, w)).
Proof.
  intros E st w. split; [reflexivity |]. split; [reflexivity |].
  intros c. split.
  - intros Hs. inversion Hs; subst. simpl in *.
    unfold revise_email, ret in *. congruence.
  - intros ->. apply step_node; [discriminate | reflexivity | reflexivity].
Qed.

(** C7. Input processing sets [parsed_data] to one fixed record that does
    not depend on the state (in particular not on [user_input]); its keys
    are exactly vehicle_model, software_version, control_board,
    manager_name, distributor_name and test_result. *)
Theorem process_input_fixed_record : forall (E : Env) (st : EmailState) (w : world),
  (exists w' st', process_input E st w = (w', Ok st') /\
                  st'.(parsed_data) = fixed_parsed_data) /\
  map fst fixed_parsed_data =
    ["vehicle_model"; "software_version"; "control_board";
     "manager_name"; "distributor_name"; "test_result"].
Proof.
  intros E st w. split; [| reflexivity].
  do 2 eexists. split; reflexivity.
Qed.

Lemma web_page_html_split : forall st score vm sv cb,
  exists pre suf, forall now,
    web_page_html st score vm sv cb now = pre ++ now ++ suf.
Proof.
  intros. do 2 eexists. intros now. unfold web_page_html. reflexivity.
Qed.

(** C9. Publishing a given state is deterministic up to the render
    timestamp: either every invocation raises the same [KeyError] (and
    writes nothing), or there are a fixed prefix and suffix such that every
    invocation writes exactly prefix ++ (its render timestamp) ++ suffix
    to email_result.html (when the file can be written) and returns the
    state unchanged. Two invocations on the same final state therefore
    write documents equal except for the embedded render timestamp. *)
Theorem update_web_page_same_but_timestamp : forall (E : Env) (st : EmailState),
  (exists e, forall w, update_web_page E st w = (w, Raise e)) \/
  (exists pre suf, forall w,
     update_web_page E st w =
       if w.(disk_ok)
       then (put_file (tick_clock w)
               (pre ++ strftime_datetime E w.(clock) ++ suf), Ok st)
       else (tick_clock w, Raise (OSError "email_result.html"))).
Proof.
  intros E st. unfold update_web_page.
  destruct (render_web_page st) as [page | e] eqn:Hr.
  - right. unfold render_web_page in Hr.
    destruct (dict_lookup "overall_score" _) as [score |]; try discriminate.
    destruct (dict_lookup "vehicle_model" _) as [vm |]; try discriminate.
    destruct (dict_lookup "software_version" _) as [sv |]; try discriminate.
    destruct (dict_lookup "control_board" _) as [cb |]; try discriminate.
    injection Hr as <-.
    destruct (web_page_html_split st score vm sv cb) as (pre & suf & Hs).
    exists pre, suf. intros w.
    unfold bind, now_datetime, get_world, modify, ret, raise. simpl.
    rewrite Hs. destruct (disk_ok w); reflexivity.
  - left. exists e. intros w. reflexivity.
Qed.

Lemma next_node_not_input : forall n st n',
  next_node n st = Ok n' -> n' <> input_processing.
Proof.
  intros n st n' H. destruct n; simpl in H; try (injection H as <-; discriminate).
  unfold route_map in H.
  destruct (String.eqb (should_send_email st) "send");
    [injection H as <-; discriminate |].
  destruct (String.eqb (should_send_email st) "revise");
    [injection H as <-; discriminate | discriminate].
Qed.

(** Every node but [input_processing] keeps [user_input] and
    [processing_time]. *)
Lemma run_node_keeps_inputs : forall E n st w w' st',
  n <> input_processing ->
  run_node E n st w = (w', Ok st') ->
  st'.(user_input) = st.(user_input) /\
  st'.(processing_time) = st.(processing_time).
Proof.
  intros E n st w w' st' Hn Hrun.
  destruct n; try congruence; simpl in Hrun.
  - (* generate_email *)
    unfold generate_email, bind, llm_invoke, ret in Hrun.
    destruct (llm E _ _); inversion Hrun; subst; auto.
  - (* check_accuracy *)
    unfold check_accuracy, bind, llm_invoke, ret, raise in Hrun.
    destruct (llm E _ _) as [resp |]; [| discriminate].
    destruct (json_loads E resp) as [[] |]; try discriminate;
      try (inversion Hrun; subst; auto; fail).
    destruct (dict_lookup "overall_score" _); inversion Hrun; subst; auto.
  - (* simulate_email_send *)
    inversion Hrun; subst; auto.
  - (* output_result *)
    unfold output_result, bind, modify, ret, raise in Hrun.
    destruct (dict_lookup "overall_score" _); inversion Hrun; subst; auto.
  - (* update_web_page *)
    unfold update_web_page, bind, now_datetime, get_world, modify, ret,
      raise in Hrun.
    destruct (render_web_page st); [| discriminate].
    destruct (disk_ok _); inversion Hrun; subst; auto.
  - (* revise_email *)
    inversion Hrun; subst; auto.
  - (* END *)
    inversion Hrun; subst; auto.
Qed.

(** C5. From the state left by input processing, however many supersteps
    the graph runs (through any number of Generation, Evaluation and
    Revision iterations, and the terminal nodes), [user_input] and
    [processing_time] keep the values they had after input processing. *)
Theorem inputs_unchanged_by_loop :
  forall (E : Env) (st0 : EmailState) (w0 : world) n st w,
  steps E (email_generation, st0, w0) (n, st, w) ->
  st.(user_input) = st0.(user_input) /\
  st.(processing_time) = st0.(processing_time).
Proof.
  intros E st0 w0 n st w Hsteps.
  assert (Hgen : forall c c', steps E c c' ->
            forall n1 st1 w1 n2 st2 w2,
            c = (n1, st1, w1) -> c' = (n2, st2, w2) ->
            n1 <> input_processing ->
            st2.(user_input) = st1.(user_input) /\
            st2.(processing_time) = st1.(processing_time)).
  { intros c c' H. induction H as [c | c1 c2 c3 Hstep Hrest IH];
      intros n1 st1 w1 n2 st2 w2 E1 E2 Hn1.
    - subst. injection E2 as -> -> ->. auto.
    - subst. inversion Hstep as [m sa wa wb sb m' Hm Hrun Hnext]; subst.
      destruct (run_node_keeps_inputs E n1 st1 w1 wb sb Hn1 Hrun) as [H1 H2].
      destruct (IH m' sb wb n2 st2 w2 eq_refl eq_refl
                  (next_node_not_input _ _ _ Hnext)) as [H3 H4].
      split; congruence. }
  exact (Hgen _ _ Hsteps _ _ _ _ _ _ eq_refl eq_refl ltac:(discriminate)).
Qed.

Lemma step_fn_sound : forall E c c', step_fn E c = Some c' -> step E c c'.
Proof.
  intros E [[n st] w] c' H. unfold step_fn in H.
  destruct n;
    try discriminate;
    destruct (run_node E _ st w) as [w1 [st1 | e]] eqn:Hrun; try discriminate;
    destruct (next_node _ st1) as [n' | e] eqn:Hnext; try discriminate;
    injection H as <-; apply step_node; auto; discriminate.
Qed.

Lemma iterate_steps_sound : forall E k c c',
  iterate_steps E k c = Some c' -> steps E c c'.
Proof.
  intros E k. induction k as [| k IH]; intros c c' H; simpl in H.
  - injection H as <-. apply steps_refl.
  - destruct (step_fn E c) as [c1 |] eqn:Hs; [| discriminate].
    eapply steps_cons; [apply step_fn_sound; exact Hs | apply IH; exact H].
Qed.

Definition after_input : EmailState * world :=
  Eval vm_compute in
  match process_input env_revise80 (initial_state input) w0 with
  | (w, Ok st) => (st, w)
  | (w, Raise _) => (initial_state input, w)
  end.

(** The configuration two full revise iterations and one generation
    later. *)
Definition after_loop : node * EmailState * world :=
  Eval vm_compute in
  match iterate_steps env_revise80 7
          (email_generation, fst after_input, snd after_input) with
  | Some c => c
  | None => (END, fst after_input, snd after_input)
  end.

Lemma inputs_unchanged_by_loop_witness :
  steps env_revise80 (email_generation, fst after_input, snd after_input)
    (fst (fst after_loop), snd (fst after_loop), snd after_loop) /\
  (snd (fst after_loop)).(user_input) = (fst after_input).(user_input) /\
  (snd (fst after_loop)).(processing_time) = (fst after_input).(processing_time).
Proof.
  assert (Hs : steps env_revise80
                 (email_generation, fst after_input, snd after_input)
                 (fst (fst after_loop), snd (fst after_loop), snd after_loop)).
  { apply (iterate_steps_sound env_revise80 7). vm_compute. reflexivity. }
  split; [exact Hs |].
  exact (inputs_unchanged_by_loop env_revise80 (fst after_input) (snd after_input)
           (fst (fst after_loop)) (snd (fst after_loop)) (snd after_loop) Hs).
Defined.

Example after_loop_is_accuracy_check :
  fst (fst after_loop) = accuracy_check /\
  (snd after_loop).(llm_calls) = 5.
Proof. vm_compute. auto. Qed.

(** C8. When the LLM client raises during draft generation, the generation
    node calls it exactly once (no retry), catches nothing, and the
    exception ends the run: the graph visits no further node. This holds
    on every iteration of the loop. *)
Theorem generate_email_failure_aborts :
  forall (E : Env) (st : EmailState) (w : world) (msg : string) (fuel : nat),
  llm E w.(llm_calls)
      (email_prompt E st.(user_input) st.(current_date) st.(parsed_data))
    = inr msg ->
  generate_email E st w = (tick_llm w, Raise (LLMError msg)) /\
  exec E (S fuel) email_generation st w =
    (tick_llm w, [email_generation], Raise (LLMError msg)).
Proof.
  intros E st w msg fuel Hllm.
  assert (Hg : generate_email E st w = (tick_llm w, Raise (LLMError msg))).
  { unfold generate_email, bind, llm_invoke. rewrite Hllm. reflexivity. }
  split; [exact Hg |]. simpl. rewrite Hg. reflexivity.
Qed.

Lemma generate_email_failure_aborts_witness :
  llm env_down (snd after_input).(llm_calls)
      (email_prompt env_down (fst after_input).(user_input)
         (fst after_input).(current_date) (fst after_input).(parsed_data))
    = inr "APIConnectionError: Connection error." /\
  generate_email env_down (fst after_input) (snd after_input) =
    (tick_llm (snd after_input),
     Raise (LLMError "APIConnectionError: Connection error.")) /\
  exec env_down 24 email_generation (fst after_input) (snd after_input) =
    (tick_llm (snd after_input), [email_generation],
     Raise (LLMError "APIConnectionError: Connection error.")).
Proof.
  split; [reflexivity |].
  apply (generate_email_failure_aborts env_down (fst after_input)
           (snd after_input) _ 23).
  reflexivity.
Defined.

(** Successful runs of the terminal nodes. *)
Lemma output_result_ok : forall E st w v,
  dict_lookup "overall_score" st.(accuracy_score) = Some v ->
  run_node E result_output st w =
    (put_stdout w (render_summary st v),
     Ok (set_result_summary st (render_summary st v))).
Proof.
  intros E st w v H. simpl. unfold output_result. rewrite H. reflexivity.
Qed.

Lemma update_web_page_ok : forall E st w page,
  render_web_page st = Ok page ->
  w.(disk_ok) = true ->
  run_node E web_update st w =
    (put_file (tick_clock w) (page (strftime_datetime E w.(clock))), Ok st).
Proof.
  intros E st w page H Hd. simpl. unfold update_web_page. rewrite H.
  unfold bind, now_datetime, get_world, modify, ret. simpl. rewrite Hd.
  reflexivity.
Qed.

Lemma render_web_page_fixed : forall st v,
  st.(parsed_data) = fixed_parsed_data ->
  dict_lookup "overall_score" st.(accuracy_score) = Some v ->
  render_web_page st =
    Ok (web_page_html st v "추출된차종" "추출된버전" "추출된제어보드").
Proof.
  intros st v Hp Hv. unfold render_web_page. rewrite Hv, Hp. reflexivity.
Qed.

(** C3. When the first evaluation returns [overall_score] 100 and
    [recommendation] ["APPROVE"] (and the generation call succeeds, the file
    can be written and the step limit is at least 7: six node supersteps and
    the one that finds nothing left to run), the run visits exactly
    input processing, generation, evaluation, simulated send, summary and
    publication, in that order: one generation, one evaluation (two LLM
    calls in all), no revision; it ends with [send_status] set to
    ["전송 완료 (시뮬레이션)"]. *)
Theorem run_first_evaluation_approves :
  forall (E : Env) (u : string) (w : world) (draft resp : string) (d : dict),
  7 <= recursion_limit E ->
  w.(disk_ok) = true ->
  llm E w.(llm_calls)
    (email_prompt E u (strftime_date E w.(clock)) fixed_parsed_data)
    = inl draft ->
  llm E (S w.(llm_calls)) (accuracy_prompt E u draft) = inl resp ->
  json_loads E resp = Some (VObj d) ->
  dict_lookup "overall_score" d = Some (VInt 100) ->
  dict_lookup "recommendation" d = Some (VStr "APPROVE") ->
  exists w' st',
    run E u w = (w', [input_processing; email_generation; accuracy_check;
                      email_simulation; result_output; web_update], Ok st') /\
    st'.(send_status) = send_complete /\
    w'.(llm_calls) = w.(llm_calls) + 2.
Proof.
  intros E u w draft resp d HL Hdisk Hgen Heval Hjson Hscore Hrec.
  unfold run.
  destruct (recursion_limit E) as [|[|[|[|[|[|[|k]]]]]]] eqn:HLim; try lia.
  cbn [exec run_node].
  unfold process_input, bind, now_date, now_datetime, ret. cbn [tick_clock llm_calls].
  cbn [next_node exec run_node].
  unfold generate_email, llm_invoke, bind, ret.
  cbn [set_parsed_data initial_state user_input current_date parsed_data].
  cbn [tick_clock llm_calls clock]. rewrite Hgen.
  cbn [next_node exec run_node tick_llm llm_calls].
  unfold check_accuracy, llm_invoke, bind, ret.
  cbn [set_generated_email set_parsed_data initial_state user_input generated_email tick_llm tick_clock llm_calls].
  rewrite Heval, Hjson, Hscore.
  cbn [next_node].
  set (st3 := set_accuracy_score _ d).
  assert (Hsend : should_send_email st3 = "send").
  { unfold should_send_email, dict_get. simpl. rewrite Hscore, Hrec. reflexivity. }
  rewrite Hsend. cbn [route_map String.eqb Ascii.eqb Bool.eqb andb].
  set (st4 := set_send_status st3 send_complete).
  change (run_node E email_simulation st3 ?w) with (w, @Ok EmailState st4).
  cbn [next_node].
  rewrite (output_result_ok E st4 _ (VInt 100) Hscore).
  cbn [next_node].
  set (st5 := set_result_summary st4 _).
  erewrite update_web_page_ok;
    [| exact (render_web_page_fixed st5 (VInt 100) eq_refl Hscore) | exact Hdisk].
  cbn [next_node exec]. cbv beta iota zeta.
  do 2 eexists. split; [reflexivity |]. split; [reflexivity |].
  simpl. lia.
Qed.

Lemma run_first_evaluation_approves_witness :
  exists w' st',
    run env_approve input w0 =
      (w', [input_processing; email_generation; accuracy_check;
            email_simulation; result_output; web_update], Ok st') /\
    st'.(send_status) = send_complete /\
    w'.(llm_calls) = w0.(llm_calls) + 2.
Proof.
  apply (run_first_evaluation_approves env_approve input w0
           "Dear team, the test passed." resp_approve eval_approve).
  - vm_compute. lia.
  - reflexivity.
  - reflexivity.
  - reflexivity.
  - reflexivity.
  - reflexivity.
  - reflexivity.
Defined.

(** The step limit at the boundary: the six-node approving run needs a
    seventh superstep, the one that finds nothing left to run. *)
Definition with_limit (E : Env) (n : nat) : Env :=
  mkEnv (llm E) (json_loads E) (strftime_date E) (strftime_datetime E)
        (email_prompt E) (accuracy_prompt E) n.

Example run_approve_limit_boundary :
  result_of (run (with_limit env_approve 6) input w0) = Raise GraphRecursionError /\
  trace_of (run (with_limit env_approve 6) input w0) =
    [input_processing; email_generation; accuracy_check;
     email_simulation; result_output; web_update] /\
  (exists st, result_of (run (with_limit env_approve 7) input w0) = Ok st).
Proof. split; [vm_compute; reflexivity |]. split; [vm_compute; reflexivity |].
  eexists. vm_compute. reflexivity. Qed.

(** ** The revise loop and the step limit *)

Section ReviseLoop.

Variable E : Env.

(** Every generation call succeeds. *)
Hypothesis generation_succeeds : forall i u cd pd,
  exists r, llm E i (email_prompt E u cd pd) = inl r.

(** Every evaluation returns [overall_score] 80 and [recommendation]
    ["REVISE"]. *)
Hypothesis evaluation_revise80 : forall i u g,
  exists r d, llm E i (accuracy_prompt E u g) = inl r /\
              json_loads E r = Some (VObj d) /\
              dict_lookup "overall_score" d = Some (VInt 80) /\
              dict_lookup "recommendation" d = Some (VStr "REVISE").

Lemma exec_revise_loop : forall fuel n st w,
  In n [email_generation; accuracy_check; revision] ->
  exists w', exec E fuel n st w = (w', cycle_trace fuel n, Raise GraphRecursionError).
Proof.
  induction fuel as [| fuel IH]; intros n st w Hn.
  - simpl in Hn. destruct Hn as [<- | [<- | [<- | []]]]; eexists; reflexivity.
  - simpl in Hn. destruct Hn as [<- | [<- | [<- | []]]].
    + destruct (generation_succeeds (llm_calls w) (user_input st)
                  (current_date st) (parsed_data st)) as [r Hr].
      cbn [exec run_node]. unfold generate_email, bind, llm_invoke, ret.
      rewrite Hr. cbn [next_node].
      destruct (IH accuracy_check (set_generated_email st r) (tick_llm w))
        as [w' Hw']; [simpl; auto |].
      rewrite Hw'. eexists. reflexivity.
    + destruct (evaluation_revise80 (llm_calls w) (user_input st)
                  (generated_email st)) as (r & d & Hr & Hj & Hs & Hrec).
      cbn [exec run_node]. unfold check_accuracy, bind, llm_invoke, ret.
      rewrite Hr, Hj, Hs.
      assert (Hroute : should_send_email (set_accuracy_score st d) = "revise").
      { unfold should_send_email, dict_get. simpl. rewrite Hs, Hrec. reflexivity. }
      cbn [next_node]. rewrite Hroute. cbn [route_map String.eqb Ascii.eqb Bool.eqb andb].
      destruct (IH revision (set_accuracy_score st d) (tick_llm w))
        as [w' Hw']; [simpl; auto |].
      rewrite Hw'. eexists. reflexivity.
    + cbn [exec run_node next_node]. unfold revise_email, ret.
      destruct (IH email_generation st w) as [w' Hw']; [simpl; auto |].
      rewrite Hw'. eexists. reflexivity.
Qed.

End ReviseLoop.

Lemma cycle_trace_length : forall k n, length (cycle_trace k n) = k.
Proof. induction k as [| k IH]; intros n; simpl; [reflexivity | now rewrite IH]. Qed.

Lemma cycle_trace_loop_nodes : forall k n m,
  In n [email_generation; accuracy_check; revision] ->
  In m (cycle_trace k n) -> In m [email_generation; accuracy_check; revision].
Proof.
  induction k as [| k IH]; intros n m Hn Hm; simpl in Hm; [contradiction |].
  destruct Hm as [<- | Hm]; [exact Hn |].
  apply (IH (loop_next n)); [| exact Hm].
  simpl in Hn. destruct Hn as [<- | [<- | [<- | []]]]; simpl; auto.
Qed.

(** C4 (as the code behaves). [_build_graph] and [run] define no iteration
    cap of their own, and with an evaluation that always answers
    [overall_score] 80 / ["REVISE"] the run never reaches the simulated send:
    it cycles Generation, Evaluation, Revision until LangGraph's superstep
    limit ([recursion_limit], 25 by default since [run] passes no config) is
    used up, and then ends with [GraphRecursionError] after exactly
    [recursion_limit] node executions. *)
Theorem run_revise80_stops_at_step_limit : forall (E : Env),
  (forall i u cd pd, exists r, llm E i (email_prompt E u cd pd) = inl r) ->
  (forall i u g, exists r d, llm E i (accuracy_prompt E u g) = inl r /\
                 json_loads E r = Some (VObj d) /\
                 dict_lookup "overall_score" d = Some (VInt 80) /\
                 dict_lookup "recommendation" d = Some (VStr "REVISE")) ->
  forall (u : string) (w : world),
  exists w',
    run E u w = (w', loop_run_trace (recursion_limit E), Raise GraphRecursionError) /\
    length (loop_run_trace (recursion_limit E)) = recursion_limit E /\
    ~ In email_simulation (loop_run_trace (recursion_limit E)).
Proof.
  intros E Hgen Heval u w. unfold run.
  destruct (recursion_limit E) as [| k].
  - exists w. simpl. auto.
  - cbn [exec run_node next_node].
    unfold process_input, bind, now_date, now_datetime, ret.
    destruct (exec_revise_loop E Hgen Heval k email_generation
                (set_parsed_data (initial_state u) fixed_parsed_data
                   (strftime_date E (clock w))
                   (strftime_datetime E (clock (tick_clock w))))
                (tick_clock (tick_clock w))) as [w' Hw']; [simpl; auto |].
    rewrite Hw'. exists w'. split; [reflexivity |].
    split; [simpl; now rewrite cycle_trace_length |].
    simpl. intros [H | H]; [discriminate |].
    apply cycle_trace_loop_nodes in H; [| simpl; auto].
    simpl in H. destruct H as [H | [H | [H | []]]]; discriminate.
Qed.

Lemma run_revise80_stops_at_step_limit_witness :
  exists w',
    run env_revise80 input w0 =
      (w', loop_run_trace (recursion_limit env_revise80), Raise GraphRecursionError) /\
    length (loop_run_trace (recursion_limit env_revise80)) = recursion_limit env_revise80 /\
    ~ In email_simulation (loop_run_trace (recursion_limit env_revise80)).
Proof.
  apply run_revise80_stops_at_step_limit.
  - intros i u cd pd. eexists. reflexivity.
  - intros i u g. exists resp_revise80, eval_revise80.
    split; [vm_compute; reflexivity |]. split; [vm_compute; reflexivity |].
    split; reflexivity.
Defined.

(** C4, as stated, fails: with the evaluation always answering 80 /
    ["REVISE"] and the default step limit of 25, the run does not repeat
    the cycle indefinitely. It runs eight generations and then ends with
    [GraphRecursionError], so "at least n generations for every n" is
    false. *)
Lemma run_revise80_not_indefinite :
  result_of (run env_revise80 input w0) = Raise GraphRecursionError /\
  ~ (forall n, n <= count_node email_generation (trace_of (run env_revise80 input w0))).
Proof.
  split; [vm_compute; reflexivity |].
  intros H. specialize (H 9). vm_compute in H. lia.
Qed.

(** On a [JSONDecodeError] the evaluation node does not raise: it stores
    the fallback record with score 0, recommendation ["REVISE"] and a
    non-empty feedback, which the router sends to revision. *)
Lemma check_accuracy_decode_failure : forall E st w resp,
  llm E w.(llm_calls) (accuracy_prompt E st.(user_input) st.(generated_email))
    = inl resp ->
  json_loads E resp = None ->
  check_accuracy E st w =
    (tick_llm w, Ok (set_accuracy_score st parse_failure_score)) /\
  dict_get parse_failure_score "feedback" (VStr "") <> VStr "" /\
  next_node accuracy_check (set_accuracy_score st parse_failure_score) = Ok revision.
Proof.
  intros E st w resp Hr Hj. repeat split.
  - unfold check_accuracy, bind, llm_invoke, ret. rewrite Hr, Hj. reflexivity.
  - discriminate.
Qed.

(** C2 fails on a well-formed JSON response that is not an evaluation
    record: for the response [{}] the evaluation node raises [KeyError]
    at its logging line ([accuracy_data['overall_score']], outside the
    [except json.JSONDecodeError] clause), and the run aborts right after
    the evaluation node instead of routing to revision. *)
Lemma run_empty_object_evaluation_aborts :
  json_loads env_empty_object "{}" = Some (VObj []) /\
  trace_of (run env_empty_object input w0) =
    [input_processing; email_generation; accuracy_check] /\
  result_of (run env_empty_object input w0) = Raise (KeyError "overall_score").
Proof. vm_compute. auto. Qed.

Example run_garbage_routes_to_revision :
  firstn 4 (trace_of (run env_garbage input w0)) =
    [input_processing; email_generation; accuracy_check; revision].
Proof. vm_compute. reflexivity. Qed.

Example run_down_aborts :
  trace_of (run env_down input w0) = [input_processing; email_generation] /\
  result_of (run env_down input w0) =
    Raise (LLMError "APIConnectionError: Connection error.").
Proof. vm_compute. auto. Qed.

(** ** What each node does to the world *)

(** LLM calls made by one node execution. *)
Definition node_llm_cost (n : node) : nat :=
  match n with
  | email_generation | accuracy_check => 1
  | _ => 0
  end.

Ltac unfold_nodes :=
  unfold process_input, generate_email, check_accuracy, simulate_email_send,
    output_result, update_web_page, revise_email, llm_invoke, now_date,
    now_datetime, bind, ret, raise, modify, get_world in *.

Ltac split_matches H :=
  repeat match type of H with
         | context [match ?x with _ => _ end] => destruct x
         end.

(** Whatever its outcome, a node calls the LLM [node_llm_cost] times,
    writes email_result.html only if it is [web_update], prints only if it
    is [result_output], and does not change whether the disk is writable. *)
Lemma run_node_world : forall E n st w w1 r,
  run_node E n st w = (w1, r) ->
  w1.(llm_calls) = w.(llm_calls) + node_llm_cost n /\
  (n <> web_update -> w1.(html_file) = w.(html_file)) /\
  (n <> result_output -> w1.(stdout) = w.(stdout)) /\
  w1.(disk_ok) = w.(disk_ok).
Proof.
  intros E n st w w1 r H.
  destruct n; simpl in H; unfold_nodes; split_matches H;
    injection H as <- <-; simpl; repeat split; intros; try lia;
    try congruence.
Qed.

Lemma exec_END : forall E fuel st w, exec E (S fuel) END st w = (w, [], Ok st).
Proof. reflexivity. Qed.

(** Unfolding one superstep of [exec] on a node other than [END]. *)
Lemma exec_S : forall E fuel n st w,
  n <> END ->
  exec E (S fuel) n st w =
    match run_node E n st w with
    | (w1, Raise e) => (w1, [n], Raise e)
    | (w1, Ok st1) =>
        match next_node n st1 with
        | Raise e => (w1, [n], Raise e)
        | Ok n' => let '(w2, trace, r) := exec E fuel n' st1 w1 in
                   (w2, n :: trace, r)
        end
    end.
Proof. intros E fuel n st w Hn. destruct n; [..| congruence]; reflexivity. Qed.

Lemma exec_O : forall E n st w,
  exec E 0 n st w = (w, [], Raise GraphRecursionError).
Proof. reflexivity. Qed.

Lemma node_cost_count : forall n l,
  node_llm_cost n + (count_node email_generation l + count_node accuracy_check l) =
  count_node email_generation (n :: l) + count_node accuracy_check (n :: l).
Proof. intros [] l; simpl; lia. Qed.

(** What a whole execution does to the world, read off its trace. *)
Lemma exec_world : forall E fuel n st w w' tr r,
  exec E fuel n st w = (w', tr, r) ->
  w'.(llm_calls) =
    w.(llm_calls) + count_node email_generation tr + count_node accuracy_check tr /\
  (~ In web_update tr -> w'.(html_file) = w.(html_file)) /\
  w'.(disk_ok) = w.(disk_ok).
Proof.
  intros E fuel. induction fuel as [| fuel IH]; intros n st w w' tr r H.
  - rewrite exec_O in H.
    injection H as <- <- <-. simpl. repeat split; auto; lia.
  - destruct (node_eqb n END) eqn:Hn.
    + destruct n; try discriminate. rewrite exec_END in H.
      injection H as <- <- <-. simpl. repeat split; auto; lia.
    + rewrite exec_S in H by (destruct n; discriminate).
      destruct (run_node E n st w) as [w1 r1] eqn:Hrun.
      destruct (run_node_world E n st w w1 r1 Hrun) as (Hc & Hh & _ & Hd).
      destruct r1 as [st1 | e].
      * destruct (next_node n st1) as [n' | e].
        -- destruct (exec E fuel n' st1 w1) as [[w2 tr2] r2] eqn:Hex.
           injection H as <- <- <-.
           destruct (IH n' st1 w1 w2 tr2 r2 Hex) as (Hc2 & Hh2 & Hd2).
           repeat split.
           ++ pose proof (node_cost_count n tr2). lia.
           ++ intros Hin. rewrite Hh2 by (intro; apply Hin; right; auto).
              apply Hh. intro; subst; apply Hin; left; auto.
           ++ congruence.
        -- injection H as <- <- <-. repeat split.
           ++ pose proof (node_cost_count n []). simpl in *. lia.
           ++ intros Hin. apply Hh. intro; subst; apply Hin; left; auto.
           ++ exact Hd.
      * injection H as <- <- <-. repeat split.
        -- pose proof (node_cost_count n []). simpl in *. lia.
        -- intros Hin. apply Hh. intro; subst; apply Hin; left; auto.
        -- exact Hd.
Qed.

(** X1. Every run, whatever its outcome (normal end, an exception, or the
    step limit), calls the LLM exactly once per visit of the generation
    node and once per visit of the evaluation node, and no other time. *)
Theorem run_llm_calls_count : forall (E : Env) (u : string) (w w' : world) tr r,
  run E u w = (w', tr, r) ->
  w'.(llm_calls) =
    w.(llm_calls) + count_node email_generation tr + count_node accuracy_check tr.
Proof.
  intros E u w w' tr r H. exact (proj1 (exec_world E _ _ _ _ _ _ _ H)).
Qed.

(** X2. A run that never reaches the publish node (it raised, hit the step
    limit, or stopped earlier) leaves email_result.html as it was. *)
Theorem run_no_publish_keeps_file : forall (E : Env) (u : string) (w w' : world) tr r,
  run E u w = (w', tr, r) ->
  ~ In web_update tr ->
  w'.(html_file) = w.(html_file).
Proof.
  intros E u w w' tr r H Hin.
  exact (proj1 (proj2 (exec_world E _ _ _ _ _ _ _ H)) Hin).
Qed.

Definition run_revise80_result := Eval vm_compute in run env_revise80 input w0.
Definition run_empty_object_result := Eval vm_compute in run env_empty_object input w0.

Lemma run_llm_calls_count_witness :
  run env_revise80 input w0 =
    (fst (fst run_revise80_result), snd (fst run_revise80_result),
     snd run_revise80_result) /\
  (fst (fst run_revise80_result)).(llm_calls) =
    w0.(llm_calls) + count_node email_generation (snd (fst run_revise80_result))
      + count_node accuracy_check (snd (fst run_revise80_result)).
Proof.
  assert (H : run env_revise80 input w0 =
                (fst (fst run_revise80_result), snd (fst run_revise80_result),
                 snd run_revise80_result)) by (vm_compute; reflexivity).
  split; [exact H | exact (run_llm_calls_count _ _ _ _ _ _ H)].
Defined.

Lemma run_no_publish_keeps_file_witness :
  run env_empty_object input w0 =
    (fst (fst run_empty_object_result), snd (fst run_empty_object_result),
     snd run_empty_object_result) /\
  ~ In web_update (snd (fst run_empty_object_result)) /\
  (fst (fst run_empty_object_result)).(html_file) = w0.(html_file).
Proof.
  assert (H : run env_empty_object input w0 =
                (fst (fst run_empty_object_result), snd (fst run_empty_object_result),
                 snd run_empty_object_result)) by (vm_compute; reflexivity).
  assert (Hin : ~ In web_update (snd (fst run_empty_object_result))).
  { vm_compute. intros [H1 | [H1 | [H1 | []]]]; discriminate. }
  split; [exact H | split; [exact Hin |]].
  exact (run_no_publish_keeps_file _ _ _ _ _ _ H Hin).
Defined.

Lemma send_has_score : forall st,
  should_send_email st = "send" ->
  exists v, dict_lookup "overall_score" st.(accuracy_score) = Some v.
Proof.
  intros st H. unfold should_send_email, dict_get in H.
  destruct (dict_lookup "overall_score" st.(accuracy_score)) as [v |].
  - exists v. reflexivity.
  - simpl in H. discriminate.
Qed.

Lemma send_path_exec : forall (E : Env) fuel st w,
  should_send_email st = "send" ->
  st.(parsed_data) = fixed_parsed_data ->
  4 <= fuel ->
  exists st' w' page,
    exec E fuel email_simulation st w =
      (w', [email_simulation; result_output; web_update],
       if w.(disk_ok) then Ok st' else Raise (OSError "email_result.html")) /\
    st'.(send_status) = send_complete /\
    st'.(accuracy_score) = st.(accuracy_score) /\
    w'.(stdout) = (w.(stdout) ++ [st'.(result_summary)])%list /\
    render_web_page st' = Ok page /\
    (w.(disk_ok) = true ->
       w'.(html_file) = Some (page (strftime_datetime E w.(clock)))).
Proof.
  intros E fuel st w Hsend Hpd Hfuel.
  destruct (send_has_score st Hsend) as [v Hv].
  destruct fuel as [|[|[|[|k]]]]; try lia.
  rewrite exec_S by discriminate. cbn [run_node next_node].
  unfold simulate_email_send, ret.
  rewrite exec_S by discriminate.
  set (st4 := set_send_status st send_complete).
  rewrite (output_result_ok E st4 w v Hv). cbn [next_node].
  set (st5 := set_result_summary st4 (render_summary st4 v)).
  rewrite exec_S by discriminate.
  assert (Hr : render_web_page st5 =
                 Ok (web_page_html st5 v "추출된차종" "추출된버전" "추출된제어보드"))
    by (exact (render_web_page_fixed st5 v Hpd Hv)).
  cbn [run_node]. unfold update_web_page. rewrite Hr.
  unfold bind, now_datetime, get_world, modify, ret, raise.
  cbn [disk_ok tick_clock put_stdout clock].
  exists st5, (if disk_ok w
               then put_file (tick_clock (put_stdout w (render_summary st4 v)))
                      (web_page_html st5 v "추출된차종" "추출된버전" "추출된제어보드"
                         (strftime_datetime E (clock w)))
               else tick_clock (put_stdout w (render_summary st4 v))),
    (web_page_html st5 v "추출된차종" "추출된버전" "추출된제어보드").
  destruct (disk_ok w) eqn:Hd; cbn [next_node]; rewrite ?exec_END;
    cbv beta iota zeta; repeat split; try reflexivity; try discriminate;
    exact Hr.
Qed.

(** X3. Once the router answers ["send"], the rest of the run cannot fail on
    a missing key: with at least four supersteps left (the three nodes and
    the superstep that finds nothing left to run) and the parsed
    fields of [process_input], the run visits the simulated send, the
    summary and the publish node and then ends. It returns normally iff
    email_result.html can be written (otherwise [OSError]). The final
    state keeps the evaluation, has the completion marker, exactly one
    summary is printed (the one stored in the state), and the file holds
    the rendered page. *)
Theorem send_path_completes : forall (E : Env) fuel st w,
  should_send_email st = "send" ->
  st.(parsed_data) = fixed_parsed_data ->
  4 <= fuel ->
  exists st' w' page,
    exec E fuel email_simulation st w =
      (w', [email_simulation; result_output; web_update],
       if w.(disk_ok) then Ok st' else Raise (OSError "email_result.html")) /\
    st'.(send_status) = send_complete /\
    st'.(accuracy_score) = st.(accuracy_score) /\
    w'.(stdout) = (w.(stdout) ++ [st'.(result_summary)])%list /\
    render_web_page st' = Ok page /\
    (w.(disk_ok) = true ->
       w'.(html_file) = Some (page (strftime_datetime E w.(clock)))).
Proof. exact send_path_exec. Qed.


(** The configuration of the approving run right after its evaluation. *)
Definition approved_cfg : node * EmailState * world :=
  Eval vm_compute in
  match iterate_steps env_approve 2
          (email_generation, fst after_input, snd after_input) with
  | Some c => c
  | None => (END, fst after_input, snd after_input)
  end.

Lemma send_path_completes_witness :
  should_send_email (snd (fst approved_cfg)) = "send" /\
  (snd (fst approved_cfg)).(parsed_data) = fixed_parsed_data /\
  exists st' w' page,
    exec env_approve 22 email_simulation (snd (fst approved_cfg)) (snd approved_cfg) =
      (w', [email_simulation; result_output; web_update],
       if (snd approved_cfg).(disk_ok) then Ok st'
       else Raise (OSError "email_result.html")) /\
    st'.(send_status) = send_complete /\
    st'.(accuracy_score) = (snd (fst approved_cfg)).(accuracy_score) /\
    w'.(stdout) = ((snd approved_cfg).(stdout) ++ [st'.(result_summary)])%list /\
    render_web_page st' = Ok page /\
    ((snd approved_cfg).(disk_ok) = true ->
       w'.(html_file) =
         Some (page (strftime_datetime env_approve (snd approved_cfg).(clock)))).
Proof.
  split; [vm_compute; reflexivity |]. split; [vm_compute; reflexivity |].
  apply send_path_completes; [vm_compute; reflexivity | vm_compute; reflexivity | lia].
Defined.

(** Nodes other than [input_processing] keep the fields the prompts are
    built from. *)
Lemma run_node_keeps_prompt_fields : forall E n st w w' st',
  n <> input_processing ->
  run_node E n st w = (w', Ok st') ->
  st'.(user_input) = st.(user_input) /\
  st'.(current_date) = st.(current_date) /\
  st'.(parsed_data) = st.(parsed_data).
Proof.
  intros E n st w w' st' Hn H.
  destruct n; [congruence | ..]; simpl in H; unfold_nodes; split_matches H;
    try discriminate; injection H as <- <-; simpl; auto.
Qed.

Lemma should_send_email_acc : forall a b,
  a.(accuracy_score) = b.(accuracy_score) ->
  should_send_email a = should_send_email b.
Proof. intros a b H. unfold should_send_email. rewrite H. reflexivity. Qed.

Lemma send_tail_ok : forall E fuel st w w' tr st',
  should_send_email st = "send" ->
  st.(parsed_data) = fixed_parsed_data ->
  exec E fuel email_simulation st w = (w', tr, Ok st') ->
  tr = [email_simulation; result_output; web_update] /\
  st'.(accuracy_score) = st.(accuracy_score) /\
  st'.(send_status) = send_complete /\
  w'.(stdout) = (w.(stdout) ++ [st'.(result_summary)])%list /\
  exists page ts, render_web_page st' = Ok page /\ w'.(html_file) = Some (page ts).
Proof.
  intros E fuel st w w' tr st' Hsend Hpd H.
  destruct (Nat.le_gt_cases 4 fuel) as [Hf | Hf].
  - destruct (send_path_exec E fuel st w Hsend Hpd Hf)
      as (st2 & w2 & page & Hex & Hs & Ha & Ho & Hr & Hh).
    rewrite Hex in H. destruct (disk_ok w) eqn:Hd; [| discriminate].
    injection H as <- <- <-. repeat split; auto.
    exists page, (strftime_datetime E (clock w)). auto.
  - exfalso. destruct (send_has_score st Hsend) as [v Hv].
    destruct fuel as [|[|[|[|k]]]]; try lia.
    + rewrite exec_O in H. discriminate.
    + rewrite exec_S in H by discriminate. cbn [run_node next_node] in H.
      unfold simulate_email_send, ret in H.
      rewrite exec_O in H. discriminate.
    + rewrite exec_S in H by discriminate. cbn [run_node next_node] in H.
      unfold simulate_email_send, ret in H.
      rewrite exec_S in H by discriminate.
      rewrite (output_result_ok E (set_send_status st send_complete) w v Hv) in H.
      cbn [next_node] in H.
      rewrite exec_O in H. discriminate.
    + rewrite exec_S in H by discriminate. cbn [run_node next_node] in H.
      unfold simulate_email_send, ret in H.
      rewrite exec_S in H by discriminate.
      set (st4 := set_send_status st send_complete) in H.
      rewrite (output_result_ok E st4 w v Hv) in H.
      cbn [next_node] in H.
      set (st5 := set_result_summary st4 (render_summary st4 v)) in H.
      rewrite exec_S in H by discriminate.
      cbn [run_node] in H. unfold update_web_page in H.
      rewrite (render_web_page_fixed st5 v Hpd Hv) in H.
      unfold bind, now_datetime, get_world, modify, ret, raise in H.
      cbn [disk_ok tick_clock put_stdout clock] in H.
      destruct (disk_ok w); cbn [next_node] in H; rewrite ?exec_O in H;
        discriminate.
Qed.

Definition ok_run_tail : list node :=
  [accuracy_check; email_simulation; result_output; web_update].

(** The traces of a normal end, by the loop node the execution starts
    from: [k] full Generation/Evaluation/Revision cycles, then the last
    generation and the approving tail. *)
Definition ok_trace_from (n : node) (tr : list node) : Prop :=
  match n with
  | email_generation =>
      exists k, tr = (cycle_trace (3 * k) email_generation
                        ++ email_generation :: ok_run_tail)%list
  | accuracy_check =>
      tr = ok_run_tail \/
      exists k, tr = (accuracy_check :: revision :: cycle_trace (3 * k) email_generation
                        ++ email_generation :: ok_run_tail)%list
  | revision =>
      exists k, tr = (revision :: cycle_trace (3 * k) email_generation
                        ++ email_generation :: ok_run_tail)%list
  | _ => False
  end.

Lemma cycle_trace_3S : forall k,
  cycle_trace (3 * S k) email_generation =
    email_generation :: accuracy_check :: revision :: cycle_trace (3 * k) email_generation.
Proof. intros k. replace (3 * S k) with (S (S (S (3 * k)))) by lia. reflexivity. Qed.

Lemma count_node_app : forall m l1 l2,
  count_node m (l1 ++ l2) = count_node m l1 + count_node m l2.
Proof. intros m l1 l2. induction l1 as [| x l1 IH]; simpl; [reflexivity | lia]. Qed.

Lemma count_node_cycles : forall m k,
  count_node m (cycle_trace (3 * k) email_generation) =
    (if (node_eqb m email_generation || node_eqb m accuracy_check
         || node_eqb m revision)%bool then k else 0).
Proof.
  intros m k. induction k as [| k IH]; [destruct m; reflexivity |].
  rewrite cycle_trace_3S. destruct m; simpl in *; lia.
Qed.

Lemma exec_loop_ok : forall E fuel n st w w' tr st',
  In n [email_generation; accuracy_check; revision] ->
  st.(parsed_data) = fixed_parsed_data ->
  exec E fuel n st w = (w', tr, Ok st') ->
  ok_trace_from n tr /\
  should_send_email st' = "send" /\
  st'.(send_status) = send_complete /\
  w'.(stdout) = (w.(stdout) ++ [st'.(result_summary)])%list /\
  exists page ts, render_web_page st' = Ok page /\ w'.(html_file) = Some (page ts).
Proof.
  intros E fuel. induction fuel as [| fuel IH];
    intros n st w w' tr st' Hn Hpd H.
  - rewrite exec_O in H. discriminate.
  - rewrite exec_S in H by (simpl in Hn; intuition congruence).
    destruct (run_node E n st w) as [w1 [st1 | e]] eqn:Hrun; [| discriminate].
    assert (Hni : n <> input_processing) by (simpl in Hn; intuition congruence).
    destruct (run_node_keeps_prompt_fields E n st w w1 st1 Hni Hrun) as (_ & _ & Hpd1).
    destruct (run_node_world E n st w w1 _ Hrun) as (_ & _ & Hout & _).
    assert (Hw1 : w1.(stdout) = w.(stdout))
      by (apply Hout; simpl in Hn; intuition congruence).
    rewrite Hpd in Hpd1.
    simpl in Hn. destruct Hn as [<- | [<- | [<- | []]]].
    + cbn [next_node] in H.
      destruct (exec E fuel accuracy_check st1 w1) as [[w2 tr2] r2] eqn:Hex.
      injection H as <- <- ->.
      destruct (IH accuracy_check st1 w1 w2 tr2 st' ltac:(simpl; auto) Hpd1 Hex)
        as (Htr & Hs & Hc & Ho & Hh).
      split.
      * destruct Htr as [-> | [k ->]].
        -- exists 0. reflexivity.
        -- exists (S k). rewrite cycle_trace_3S. reflexivity.
      * rewrite Ho, Hw1. auto.
    + cbn [next_node] in H. unfold route_map in H.
      destruct (String.eqb (should_send_email st1) "send") eqn:Hsend.
      * apply String.eqb_eq in Hsend.
        destruct (exec E fuel email_simulation st1 w1) as [[w2 tr2] r2] eqn:Hex.
        injection H as <- <- ->.
        destruct (send_tail_ok E fuel st1 w1 w2 tr2 st' Hsend Hpd1 Hex)
          as (Htr & Ha & Hc & Ho & Hh).
        split; [left; rewrite Htr; reflexivity |].
        split; [rewrite (should_send_email_acc st' st1 Ha); exact Hsend |].
        rewrite Ho, Hw1. auto.
      * destruct (String.eqb (should_send_email st1) "revise") eqn:Hrev;
          [| discriminate].
        destruct (exec E fuel revision st1 w1) as [[w2 tr2] r2] eqn:Hex.
        injection H as <- <- ->.
        destruct (IH revision st1 w1 w2 tr2 st' ltac:(simpl; auto) Hpd1 Hex)
          as ([k Htr] & Hs & Hc & Ho & Hh).
        split; [right; exists k; rewrite Htr; reflexivity |].
        rewrite Ho, Hw1. auto.
    + cbn [next_node] in H.
      destruct (exec E fuel email_generation st1 w1) as [[w2 tr2] r2] eqn:Hex.
      injection H as <- <- ->.
      destruct (IH email_generation st1 w1 w2 tr2 st' ltac:(simpl; auto) Hpd1 Hex)
        as ([k Htr] & Hs & Hc & Ho & Hh).
      split; [exists k; rewrite Htr; reflexivity |].
      rewrite Ho, Hw1. auto.
Qed.

(** X4. A run returns normally only this way: input processing, then some
    number [k] of full Generation/Evaluation/Revision cycles, then a last
    generation and an evaluation whose record the router approves (score
    100 and ["APPROVE"], kept in the final state), then the simulated send,
    the summary and the publish. So the run generates and evaluates [k+1]
    times, revises [k] times, and visits input processing, the simulated
    send, the summary and the publish exactly once each. The final state
    carries the completion marker, the one line printed is the stored
    summary, and email_result.html holds the page rendered from the final
    state. *)
Theorem run_ok_shape : forall (E : Env) (u : string) (w w' : world) tr st',
  run E u w = (w', tr, Ok st') ->
  (exists k,
     tr = (input_processing :: cycle_trace (3 * k) email_generation
             ++ email_generation :: ok_run_tail)%list /\
     count_node email_generation tr = S k /\
     count_node accuracy_check tr = S k /\
     count_node revision tr = k) /\
  count_node input_processing tr = 1 /\
  count_node email_simulation tr = 1 /\
  count_node result_output tr = 1 /\
  count_node web_update tr = 1 /\
  should_send_email st' = "send" /\
  st'.(send_status) = send_complete /\
  w'.(stdout) = (w.(stdout) ++ [st'.(result_summary)])%list /\
  exists page ts, render_web_page st' = Ok page /\ w'.(html_file) = Some (page ts).
Proof.
  intros E u w w' tr st' H. unfold run in H.
  destruct (recursion_limit E) as [| k].
  - rewrite exec_O in H. discriminate.
  - rewrite exec_S in H by discriminate. cbn [run_node next_node] in H.
    unfold process_input, bind, now_date, now_datetime, ret in H.
    destruct (exec E k email_generation _ _) as [[w2 tr2] r2] eqn:Hex.
    injection H as <- <- ->.
    eapply exec_loop_ok in Hex; [| simpl; auto | reflexivity].
    destruct Hex as ([j Htr] & Hs & Hc & Ho & Hh).
    rewrite Htr.
    assert (Hcount : forall m, count_node m (input_processing ::
                       cycle_trace (3 * j) email_generation
                       ++ email_generation :: ok_run_tail)%list =
              (if node_eqb m input_processing then 1 else 0) +
              (if (node_eqb m email_generation || node_eqb m accuracy_check
                   || node_eqb m revision)%bool then j else 0) +
              count_node m (email_generation :: ok_run_tail)).
    { intros m.
      change (count_node m (input_processing :: ?l))
        with ((if node_eqb m input_processing then 1 else 0) + count_node m l).
      rewrite count_node_app, count_node_cycles. lia. }
    rewrite !Hcount. cbn -[Nat.add].
    split; [exists j; repeat split; lia |].
    rewrite Ho. cbn [stdout tick_clock]. repeat split; try lia; auto.
Qed.

Definition run_approve_result := Eval vm_compute in run env_approve input w0.

Lemma run_ok_shape_witness :
  exists w' tr st',
    run env_approve input w0 = (w', tr, Ok st') /\
    (exists k,
       tr = (input_processing :: cycle_trace (3 * k) email_generation
               ++ email_generation :: ok_run_tail)%list /\
       count_node email_generation tr = S k /\
       count_node accuracy_check tr = S k /\
       count_node revision tr = k) /\
    count_node input_processing tr = 1 /\
    count_node email_simulation tr = 1 /\
    count_node result_output tr = 1 /\
    count_node web_update tr = 1 /\
    should_send_email st' = "send" /\
    st'.(send_status) = send_complete /\
    w'.(stdout) = (w0.(stdout) ++ [st'.(result_summary)])%list /\
    exists page ts, render_web_page st' = Ok page /\ w'.(html_file) = Some (page ts).
Proof.
  destruct run_approve_result as [[w' tr] r] eqn:Hres.
  destruct r as [st' | e]; [| vm_compute in Hres; discriminate].
  assert (H : run env_approve input w0 = (w', tr, Ok st')).
  { rewrite <- Hres. vm_compute. reflexivity. }
  exists w', tr, st'. split; [exact H |].
  exact (run_ok_shape _ _ _ _ _ _ H).
Defined.

Lemma steps_keep_prompt_fields : forall E c c', steps E c c' ->
  forall n1 st1 w1 n2 st2 w2,
  c = (n1, st1, w1) -> c' = (n2, st2, w2) -> n1 <> input_processing ->
  st2.(user_input) = st1.(user_input) /\
  st2.(current_date) = st1.(current_date) /\
  st2.(parsed_data) = st1.(parsed_data).
Proof.
  intros E c c' H. induction H as [c | c1 c2 c3 Hstep Hrest IH];
    intros n1 st1 w1 n2 st2 w2 E1 E2 Hn1.
  - subst. injection E2 as -> -> ->. auto.
  - subst. inversion Hstep as [m sa wa wb sb m' Hm Hrun Hnext]; subst.
    destruct (run_node_keeps_prompt_fields E n1 st1 w1 wb sb Hn1 Hrun)
      as (H1 & H2 & H3).
    destruct (IH m' sb wb n2 st2 w2 eq_refl eq_refl
                (next_node_not_input _ _ _ Hnext)) as (H4 & H5 & H6).
    repeat split; congruence.
Qed.

(** X5. The revision feedback never reaches the model: along any execution
    that starts at the generation node, every later state has the same
    [user_input], [current_date] and [parsed_data], so every regeneration
    sends exactly the same prompt as the first one. *)
Theorem regeneration_prompt_unchanged :
  forall (E : Env) (st0 : EmailState) (w0 : world) n st w,
  steps E (email_generation, st0, w0) (n, st, w) ->
  email_prompt E st.(user_input) st.(current_date) st.(parsed_data) =
  email_prompt E st0.(user_input) st0.(current_date) st0.(parsed_data).
Proof.
  intros E st0 w0 n st w H.
  destruct (steps_keep_prompt_fields E _ _ H _ _ _ _ _ _ eq_refl eq_refl
              ltac:(discriminate)) as (H1 & H2 & H3).
  rewrite H1, H2, H3. reflexivity.
Qed.

(** The configuration back at the generation node after two revisions. *)
Definition after_two_revisions : node * EmailState * world :=
  Eval vm_compute in
  match iterate_steps env_revise80 6
          (email_generation, fst after_input, snd after_input) with
  | Some c => c
  | None => (END, fst after_input, snd after_input)
  end.

Lemma regeneration_prompt_unchanged_witness :
  fst (fst after_two_revisions) = email_generation /\
  steps env_revise80 (email_generation, fst after_input, snd after_input)
    (fst (fst after_two_revisions), snd (fst after_two_revisions),
     snd after_two_revisions) /\
  email_prompt env_revise80 (snd (fst after_two_revisions)).(user_input)
    (snd (fst after_two_revisions)).(current_date)
    (snd (fst after_two_revisions)).(parsed_data) =
  email_prompt env_revise80 (fst after_input).(user_input)
    (fst after_input).(current_date) (fst after_input).(parsed_data).
Proof.
  assert (Hs : steps env_revise80
                 (email_generation, fst after_input, snd after_input)
                 (fst (fst after_two_revisions), snd (fst after_two_revisions),
                  snd after_two_revisions)).
  { apply (iterate_steps_sound env_revise80 6). vm_compute. reflexivity. }
  split; [vm_compute; reflexivity |]. split; [exact Hs |].
  exact (regeneration_prompt_unchanged env_revise80 _ _ _ _ _ Hs).
Defined.

(** ** A model that answers each prompt the same way every time *)

Section Deterministic.

Variable E : Env.
Variables (u cd : string) (pd : str_dict) (r resp : string).

(** The answer depends on the prompt only, not on the call index (as
    the code intends with [temperature=0]). *)
Hypothesis llm_deterministic : forall i p, llm E i p = llm E 0 p.
Hypothesis first_draft : llm E 0 (email_prompt E u cd pd) = inl r.
Hypothesis first_evaluation : llm E 0 (accuracy_prompt E u r) = inl resp.
(** The first evaluation does not approve: it is not JSON, or it is a
    record with [overall_score] that the router sends to revision. *)
Hypothesis first_evaluation_revises :
  json_loads E resp = None \/
  exists d, json_loads E resp = Some (VObj d) /\
            dict_lookup "overall_score" d <> None /\
            forall st, should_send_email (set_accuracy_score st d) = "revise".

Lemma exec_deterministic_loop : forall fuel n st w,
  In n [email_generation; accuracy_check; revision] ->
  st.(user_input) = u -> st.(current_date) = cd -> st.(parsed_data) = pd ->
  (n = accuracy_check -> st.(generated_email) = r) ->
  exists w', exec E fuel n st w = (w', cycle_trace fuel n, Raise GraphRecursionError).
Proof.
  induction fuel as [| fuel IH]; intros n st w Hn Hu Hcd Hpd Hg.
  - simpl in Hn. destruct Hn as [<- | [<- | [<- | []]]]; eexists; reflexivity.
  - simpl in Hn. destruct Hn as [<- | [<- | [<- | []]]].
    + cbn [exec run_node]. unfold generate_email, bind, llm_invoke, ret.
      rewrite llm_deterministic, Hu, Hcd, Hpd, first_draft. cbn [next_node].
      destruct (IH accuracy_check (set_generated_email st r) (tick_llm w))
        as [w' Hw'];
        try (simpl; auto; fail); try (intros Hx; reflexivity).
      rewrite Hw'. eexists. reflexivity.
    + cbn [exec run_node]. unfold check_accuracy, bind, llm_invoke, ret.
      rewrite llm_deterministic, Hu, (Hg eq_refl), first_evaluation.
      destruct first_evaluation_revises as [Hj | (d & Hj & Hs & Hrev)].
      * rewrite Hj. cbn [next_node].
        assert (Hroute : should_send_email (set_accuracy_score st parse_failure_score)
                         = "revise") by reflexivity.
        rewrite Hroute. cbn [route_map String.eqb Ascii.eqb Bool.eqb andb].
        destruct (IH revision (set_accuracy_score st parse_failure_score) (tick_llm w))
          as [w' Hw'];
          try (simpl; auto; fail); try (intros Hx; discriminate).
        rewrite Hw'. eexists. reflexivity.
      * rewrite Hj. destruct (dict_lookup "overall_score" d); [| congruence].
        cbn [next_node]. rewrite (Hrev st).
        cbn [route_map String.eqb Ascii.eqb Bool.eqb andb].
        destruct (IH revision (set_accuracy_score st d) (tick_llm w))
          as [w' Hw'];
          try (simpl; auto; fail); try (intros Hx; discriminate).
        rewrite Hw'. eexists. reflexivity.
    + cbn [exec run_node next_node]. unfold revise_email, ret.
      destruct (IH email_generation st w) as [w' Hw'];
          try (simpl; auto; fail); try (intros Hx; discriminate).
      rewrite Hw'. eexists. reflexivity.
Qed.

End Deterministic.

(** X6. If the model answers each prompt the same way every time and the
    first evaluation of a run does not approve, the run never converges:
    since the revision feedback never changes the prompts, every cycle
    repeats the first one, the simulated send is never reached, and the
    run ends with [GraphRecursionError] after [recursion_limit] supersteps. *)
Theorem deterministic_model_never_converges :
  forall (E : Env) (u : string) (w : world) (r resp : string),
  (forall i p, llm E i p = llm E 0 p) ->
  llm E 0 (email_prompt E u (strftime_date E w.(clock)) fixed_parsed_data) = inl r ->
  llm E 0 (accuracy_prompt E u r) = inl resp ->
  (json_loads E resp = None \/
   exists d, json_loads E resp = Some (VObj d) /\
             dict_lookup "overall_score" d <> None /\
             forall st, should_send_email (set_accuracy_score st d) = "revise") ->
  exists w',
    run E u w = (w', loop_run_trace (recursion_limit E), Raise GraphRecursionError) /\
    ~ In email_simulation (loop_run_trace (recursion_limit E)).
Proof.
  intros E u w r resp Hdet Hgen Heval Hrev. unfold run.
  destruct (recursion_limit E) as [| k].
  - exists w. rewrite exec_O by discriminate. simpl. auto.
  - rewrite exec_S by discriminate. cbn [run_node next_node].
    unfold process_input, bind, now_date, now_datetime, ret.
    destruct (exec_deterministic_loop E u (strftime_date E (clock w))
                fixed_parsed_data r resp Hdet Hgen Heval Hrev k email_generation
                (set_parsed_data (initial_state u) fixed_parsed_data
                   (strftime_date E (clock w))
                   (strftime_datetime E (clock (tick_clock w))))
                (tick_clock (tick_clock w)))
      as [w' Hw']; try (simpl; auto; fail); try (intros Hx; discriminate).
    rewrite Hw'. exists w'. split; [reflexivity |].
    simpl. intros [H | H]; [discriminate |].
    apply cycle_trace_loop_nodes in H; [| simpl; auto].
    simpl in H. destruct H as [H | [H | [H | []]]]; discriminate.
Qed.

Lemma deterministic_model_never_converges_witness :
  exists w',
    run env_garbage input w0 =
      (w', loop_run_trace (recursion_limit env_garbage), Raise GraphRecursionError) /\
    ~ In email_simulation (loop_run_trace (recursion_limit env_garbage)).
Proof.
  apply (deterministic_model_never_converges env_garbage input w0
           "Dear team, the test passed." "Sure! Here is the evaluation").
  - intros i p. reflexivity.
  - vm_compute. reflexivity.
  - vm_compute. reflexivity.
  - left. vm_compute. reflexivity.
Defined.

(** ** Evaluation responses that end the run *)

Module EvalStubs.

(** [json_table], and the JSON array [[]]. *)
Definition json_table_ext (s : string) : option value :=
  if String.eqb s "[]" then Some (VArr []) else json_table s.

Definition env_json_list : Env :=
  mkEnv (llm_with "[]") json_table_ext
    (fun _ => "2026-10-19")
    (fun i => "2026-10-19 09:00:" ++ Z_to_dec (Z.of_nat i))
    (fun u _ _ => "EMAIL:" ++ u)
    (fun _ g => "CHECK:" ++ g)
    25.

(** A model that drafts but whose evaluation call fails. *)
Definition llm_eval_down (i : nat) (p : string) : string + string :=
  if is_check_prompt p then inr "RateLimitError: Rate limit reached."
  else inl "Dear team, the test passed.".

Definition env_eval_down := env_with llm_eval_down.

End EvalStubs.

Import EvalStubs.

(** X7. An evaluation answer that decodes to a JSON object without
    [overall_score] (even one with ["recommendation": "APPROVE"]) is not
    caught: the evaluation node raises [KeyError] and the run ends there,
    after one LLM call. *)
Theorem evaluation_missing_score_aborts :
  forall (E : Env) (st : EmailState) (w : world) (resp : string) (d : dict) fuel,
  llm E w.(llm_calls) (accuracy_prompt E st.(user_input) st.(generated_email))
    = inl resp ->
  json_loads E resp = Some (VObj d) ->
  dict_lookup "overall_score" d = None ->
  exec E (S fuel) accuracy_check st w =
    (tick_llm w, [accuracy_check], Raise (KeyError "overall_score")).
Proof.
  intros E st w resp d fuel Hr Hj Hs.
  cbn [exec run_node]. unfold check_accuracy, bind, llm_invoke, raise.
  rewrite Hr, Hj, Hs. reflexivity.
Qed.

Lemma evaluation_missing_score_aborts_witness :
  exec env_empty_object 22 accuracy_check (snd (fst after_loop)) (snd after_loop) =
    (tick_llm (snd after_loop), [accuracy_check], Raise (KeyError "overall_score")).
Proof.
  apply (evaluation_missing_score_aborts env_empty_object _ _ "{}" []).
  - vm_compute. reflexivity.
  - vm_compute. reflexivity.
  - reflexivity.
Defined.

(** X8. An evaluation answer that is valid JSON but not an object (an array,
    a string, a number, a boolean or null) makes the evaluation node raise
    [TypeError] when it subscripts it; the run ends there. *)
Theorem evaluation_non_object_aborts :
  forall (E : Env) (st : EmailState) (w : world) (resp : string) (v : value) fuel,
  llm E w.(llm_calls) (accuracy_prompt E st.(user_input) st.(generated_email))
    = inl resp ->
  json_loads E resp = Some v ->
  (forall d, v <> VObj d) ->
  exec E (S fuel) accuracy_check st w =
    (tick_llm w, [accuracy_check], Raise TypeError).
Proof.
  intros E st w resp v fuel Hr Hj Hv.
  cbn [exec run_node]. unfold check_accuracy, bind, llm_invoke, raise.
  rewrite Hr, Hj. destruct v; try reflexivity.
  exfalso. exact (Hv d eq_refl).
Qed.

Lemma evaluation_non_object_aborts_witness :
  exec env_json_list 22 accuracy_check (snd (fst after_loop)) (snd after_loop) =
    (tick_llm (snd after_loop), [accuracy_check], Raise TypeError).
Proof.
  apply (evaluation_non_object_aborts env_json_list _ _ "[]" (VArr [])).
  - vm_compute. reflexivity.
  - vm_compute. reflexivity.
  - intros d. discriminate.
Defined.

(** X9. A failing LLM call in the evaluation node is not caught either: the
    node raises the client's exception and the run ends there. *)
Theorem evaluation_llm_failure_aborts :
  forall (E : Env) (st : EmailState) (w : world) (msg : string) fuel,
  llm E w.(llm_calls) (accuracy_prompt E st.(user_input) st.(generated_email))
    = inr msg ->
  exec E (S fuel) accuracy_check st w =
    (tick_llm w, [accuracy_check], Raise (LLMError msg)).
Proof.
  intros E st w msg fuel Hr.
  cbn [exec run_node]. unfold check_accuracy, bind, llm_invoke.
  rewrite Hr. reflexivity.
Qed.

Definition run_eval_down_result := Eval vm_compute in run env_eval_down input w0.

Lemma evaluation_llm_failure_aborts_witness :
  exec env_eval_down 22 accuracy_check (snd (fst after_loop)) (snd after_loop) =
    (tick_llm (snd after_loop), [accuracy_check],
     Raise (LLMError "RateLimitError: Rate limit reached.")).
Proof.
  apply evaluation_llm_failure_aborts. vm_compute. reflexivity.
Defined.

Example run_eval_down_trace :
  snd (fst run_eval_down_result) = [input_processing; email_generation; accuracy_check].
Proof. reflexivity. Qed.

Lemma str_append_nil_r : forall s : string, s ++ "" = s.
Proof. induction s as [| c s IH]; simpl; [reflexivity | now rewrite IH]. Qed.

Lemma str_append_assoc : forall a b c : string, (a ++ b) ++ c = a ++ (b ++ c).
Proof. induction a as [| x a IH]; intros b c; simpl; [reflexivity | now rewrite IH]. Qed.

Lemma concat_In : forall (x : string) (l : list string),
  In x l -> exists a b, String.concat "" l = a ++ x ++ b.
Proof.
  intros x l. induction l as [| y l IH]; intros H; [contradiction |].
  destruct H as [<- | H].
  - exists "", (String.concat "" l). simpl.
    destruct l; simpl; [rewrite str_append_nil_r |]; reflexivity.
  - destruct (IH H) as (a & b & Hab). exists (y ++ a), b.
    destruct l as [| z l]; [contradiction |].
    change (String.concat "" (y :: z :: l)) with (y ++ String.concat "" (z :: l)).
    rewrite Hab, str_append_assoc. reflexivity.
Qed.

Ltac pick_in := repeat (first [left; reflexivity | right]).

(** X10. The published page inserts the raw input and the model's draft as
    they are, without any HTML escaping: whatever the render timestamp,
    both occur verbatim in the document written to email_result.html. *)
Theorem web_page_embeds_unescaped : forall st page,
  render_web_page st = Ok page ->
  forall now,
    (exists a b, page now = a ++ st.(user_input) ++ b) /\
    (exists a b, page now = a ++ st.(generated_email) ++ b).
Proof.
  intros st page H now. unfold render_web_page in H.
  destruct (dict_lookup "overall_score" _) as [score |]; [| discriminate].
  destruct (dict_lookup "vehicle_model" _) as [vm |]; [| discriminate].
  destruct (dict_lookup "software_version" _) as [sv |]; [| discriminate].
  destruct (dict_lookup "control_board" _) as [cb |]; [| discriminate].
  injection H as <-. unfold web_page_html.
  split; match goal with
  | |- exists _ _, String.concat _ ?l ++ _ = _ ++ ?x ++ _ =>
      destruct (concat_In x l) as (a & b & Hab);
      [cbn [In]; pick_in | rewrite Hab, !str_append_assoc; do 2 eexists; reflexivity]
  end.
Qed.

Lemma web_page_embeds_unescaped_witness :
  exists page,
    render_web_page (snd (fst approved_cfg)) = Ok page /\
    (exists a b, page "2026-10-19 12:00:00" =
                 a ++ (snd (fst approved_cfg)).(user_input) ++ b) /\
    (exists a b, page "2026-10-19 12:00:00" =
                 a ++ (snd (fst approved_cfg)).(generated_email) ++ b).
Proof.
  eexists. split; [vm_compute; reflexivity |].
  apply web_page_embeds_unescaped. vm_compute. reflexivity.
Defined.
